(** * LineLink: the straight-line example adapter of PRISM

    A shallow embedding of [docs/source/user/scripts/line_link.py] and
    of [docs/source/conf.py], and the properties their specification
    states about them.

    Numbers are Python's [float]s (IEEE 754 binary64, the items of a
    NumPy [float64] array: Rocq's primitive floats) and Python's [int]s
    in the range of [int64], the integers [np.array] stores in an
    [int64] array (NumPy on 64-bit Linux and macOS).  Larger ints,
    [None], tuples and nested lists, for which [np.array] picks other
    dtypes and shapes, are outside the model.  In the two tables of
    defaults, which meet no array, an integer literal such as [3] is
    written as the float of the same value, which Python's [==] and
    [<=] identify with it. *)

From Stdlib Require Import ZArith Floats.
From stdpp Require Import base option list gmap strings.

Set Warnings "-inexact-float,-register-all".

(** ** Machine numbers *)

(** The range of a signed 64-bit integer. *)
Definition in_int64 (n : Z) : bool :=
  ((- 2 ^ 63 <=? n) && (n <? 2 ^ 63))%Z.

(** The result of an [int64] operation whose exact value is [n]: the
    integer of the range congruent to [n] modulo [2^64]. *)
Definition wrap64 (n : Z) : Z :=
  ((n + 2 ^ 63) mod 2 ^ 64 - 2 ^ 63)%Z.

(** The binary64 value nearest to an integer, ties to even: the
    conversion of an [int64] item, or of a Python int, to [float64]. *)
Definition float_of_Z (n : Z) : float :=
  SF2Prim (binary_normalize prec emax n 0 false).

(** ** Python values and exceptions *)

(** The scalars a parameter assignment or a coordinate sequence can
    hold: an int of the [int64] range, a float, or something that is
    not a number (a string). *)
Inductive pyval :=
| PyInt (n : Z) (range : in_int64 n = true)
| PyFloat (f : float)
| PyStr (s : string).

Definition is_number (v : pyval) : bool :=
  match v with
  | PyInt _ _ | PyFloat _ => true
  | PyStr _ => false
  end.

(** The exceptions the operations below raise on the values of the
    model.  NumPy's [UFuncTypeError] is a [TypeError].  (On values
    outside the model Python and NumPy raise others as well:
    [OverflowError] for an int beyond binary64, [ValueError] for a
    ragged sequence.) *)
Inductive exn :=
| KeyError (key : string)
| TypeError.

(** The outcome of evaluating an expression: a value or a raised
    exception. *)
Inductive result (A : Type) :=
| Ok (a : A)
| Raise (e : exn).
Arguments Ok {A} a.
Arguments Raise {A} e.

(** A computation over a store [S] of mutable objects: it yields an
    outcome and the store it leaves behind.  An exception leaves the
    store as it was when raised. *)
Definition M (S A : Type) : Type := S → result A * S.

#[export] Instance M_ret {S} : MRet (M S) := λ A a s, (Ok a, s).

#[export] Instance M_bind {S} : MBind (M S) := λ A B k m s,
  match m s with
  | (Ok a, s') => k a s'
  | (Raise e, s') => (Raise e, s')
  end.

(** Calling a function that reads the object a variable of the store is
    bound to and builds a fresh value from it. *)
Definition call {S A B} (f : A → B) (var : S → A) : M S B :=
  λ s, (Ok (f (var s)), s).

(** An expression that touches no object. *)
Definition eval {S A} (r : result A) : M S A := λ s, (r, s).

(** The [pass] statement. *)
Definition pass {S} : M S unit := mret tt.

(** ** The fragment of NumPy the adapter uses *)

Module np.

(** A one-dimensional array: [dtype=int64], [dtype=float64], or a
    unicode array ([dtype='<U..']), each item of which is recorded as
    the Python value whose text it holds. *)
Inductive ndarray :=
| Int64 (items : list Z)
| Float64 (items : list float)
| Unicode (items : list pyval).

(** [a.shape], for a one-dimensional array [(n,)]. *)
Definition shape (a : ndarray) : nat :=
  match a with
  | Int64 items => length items
  | Float64 items => length items
  | Unicode items => length items
  end.

Definition as_int (v : pyval) : option Z :=
  match v with
  | PyInt n _ => Some n
  | PyFloat _ | PyStr _ => None
  end.

Definition as_float (v : pyval) : option float :=
  match v with
  | PyInt n _ => Some (float_of_Z n)
  | PyFloat f => Some f
  | PyStr _ => None
  end.

(** [np.array(seq)]: a fresh array, its dtype found from the whole
    sequence.  One string among the items makes a unicode array.  A
    sequence of numbers is an [int64] array when it is not empty and
    holds ints only, and a [float64] array otherwise, each int
    converted: the empty sequence, and one float among the items. *)
Definition array (seq : list pyval) : ndarray :=
  match mapM as_float seq with
  | None => Unicode seq
  | Some floats =>
    match seq, mapM as_int seq with
    | _ :: _, Some ints => Int64 ints
    | _, _ => Float64 floats
    end
  end.

(** [np.ones_like(seq)]: an array of the shape and dtype of
    [np.array(seq)] filled with ones (the text ['1'] in a unicode
    array). *)
Definition ones_like (seq : list pyval) : ndarray :=
  match array seq with
  | Int64 items => Int64 (replicate (length items) 1%Z)
  | Float64 items => Float64 (replicate (length items) 1%float)
  | Unicode items => Unicode (replicate (length items) (PyStr "1"))
  end.

(** [x * b], array times Python scalar ([ndarray.__mul__], the ufunc
    [multiply] with the scalar broadcast).  An [int64] array times an
    int is an [int64] product, which wraps around; a float on either
    side makes it a [float64] product of the converted operands.  There
    is no loop for a unicode operand. *)
Definition mul (x : ndarray) (b : pyval) : result ndarray :=
  match x, b with
  | Int64 items, PyInt k _ =>
    Ok (Int64 ((λ n, wrap64 (n * k)) <$> items))
  | Int64 items, PyFloat b =>
    Ok (Float64 ((λ n, float_of_Z n * b)%float <$> items))
  | Float64 items, PyInt k _ =>
    Ok (Float64 ((λ xi, xi * float_of_Z k)%float <$> items))
  | Float64 items, PyFloat b =>
    Ok (Float64 ((λ xi, xi * b)%float <$> items))
  | _, _ => Raise TypeError
  end.

(** [a * x], Python scalar times array ([ndarray.__rmul__]). *)
Definition rmul (a : pyval) (x : ndarray) : result ndarray :=
  match a, x with
  | PyInt k _, Int64 items =>
    Ok (Int64 ((λ n, wrap64 (k * n)) <$> items))
  | PyFloat a, Int64 items =>
    Ok (Float64 ((λ n, a * float_of_Z n)%float <$> items))
  | PyInt k _, Float64 items =>
    Ok (Float64 ((λ xi, float_of_Z k * xi)%float <$> items))
  | PyFloat a, Float64 items =>
    Ok (Float64 ((λ xi, a * xi)%float <$> items))
  | _, _ => Raise TypeError
  end.

(** [a + x], Python scalar plus array ([ndarray.__radd__], the ufunc
    [add]), with the dtypes of [mul].  The array added to is a product
    of [mul], hence numeric; the sum of a string and a unicode array,
    which depends on the version of NumPy, does not arise. *)
Definition radd (a : pyval) (x : ndarray) : result ndarray :=
  match a, x with
  | PyInt m _, Int64 items =>
    Ok (Int64 ((λ n, wrap64 (m + n)) <$> items))
  | PyFloat a, Int64 items =>
    Ok (Float64 ((λ n, a + float_of_Z n)%float <$> items))
  | PyInt m _, Float64 items =>
    Ok (Float64 ((λ xi, float_of_Z m + xi)%float <$> items))
  | PyFloat a, Float64 items =>
    Ok (Float64 ((λ xi, a + xi)%float <$> items))
  | _, _ => Raise TypeError
  end.

End np.

(** [d[key]] on a dict. *)
Definition dict_getitem (d : gmap string pyval) (key : string) : result pyval :=
  match d !! key with
  | Some v => Ok v
  | None => Raise (KeyError key)
  end.

(** [var[key]], for a variable of the store bound to a dict. *)
Definition getitem {S} (var : S → gmap string pyval) (key : string)
  : M S pyval :=
  λ s, (dict_getitem (var s) key, s).

(** [d.get(key)] on a dict with numeric keys, kept in insertion order:
    keys are compared with [==]. *)
Fixpoint dict_get {V} (d : list (float * V)) (key : float) : option V :=
  match d with
  | [] => None
  | (k, v) :: d' => if (k =? key)%float then Some v else dict_get d' key
  end.

(** ** The class LineLink *)

Section LineLink.

(** The state of an instance belongs to the base class [ModelLink] of
    the [prism] package, as does the type of the values its constructor
    takes. *)
Context {Self V : Type}.

(** [ModelLink.__init__(self, *args, **kwargs)]. *)
Variable ModelLink_init : list V → gmap string V → M Self unit.

(** The objects a call of [call_model] or [get_md_var] is bound to: the
    instance, the dict [par_set] and the list [data_idx].  [emul_i] is
    an [int], passed by value. *)
Record objects := Objects {
  self : Self;
  par_set : gmap string pyval;
  data_idx : list pyval;
}.

Definition LineLink_init (args : list V) (kwargs : gmap string V)
  : M Self unit :=
  pass;;
  ModelLink_init args kwargs.

Definition get_default_model_parameters : M Self (gmap string (list float)) :=
  let par_dict : gmap string (list float) :=
    {[ "A" := [-10; 10; 3];
       "B" := [0; 5; 1.5] ]}%float in
  mret par_dict.

Definition get_default_model_data : M Self (list (float * list float)) :=
  let data_dict :=
    [ (1, [4.5; 0.1]);
      (2.5, [6.8; 0.1]);
      (-2, [0; 0.1]) ]%float in
  mret data_dict.

Definition call_model (emul_i : Z) : M objects np.ndarray :=
  a ← getitem par_set "A";
  x ← call np.array data_idx;
  b ← getitem par_set "B";
  p ← eval (np.mul x b);
  vals ← eval (np.radd a p);
  mret vals.

Definition get_md_var (emul_i : Z) : M objects np.ndarray :=
  ones ← call np.ones_like data_idx;
  eval (np.rmul (PyFloat 1e-4) ones).

End LineLink.

(** ** The Sphinx configuration [docs/source/conf.py]

    A module of assignments, executed from top to bottom in a namespace
    that maps each name bound so far to its value. *)

Module conf.

(** The values the configuration binds. *)
Inductive pyobj :=
| None_
| Bool (b : bool)
| Int (n : Z)
| Str (s : string)
| List (items : list pyobj)
| Tuple (items : list pyobj)
| Dict (items : list (string * pyobj)).

(** A format string of the [%] operator, split at its conversions:
    literal text and [%s]. *)
Inductive piece :=
| Text (s : string)
| ConvS.

(** [fmt % args] for a tuple [args] of strings.  Each [%s] takes the
    next item of the tuple; a conversion with no item left, or an item
    left when the format is used up, is a [TypeError]. *)
Fixpoint str_mod (fmt : list piece) (args : list string) : result string :=
  match fmt, args with
  | [], [] => Ok EmptyString
  | [], _ :: _ => Raise TypeError
  | Text t :: fmt', _ =>
    match str_mod fmt' args with
    | Ok rest => Ok (String.append t rest)
    | Raise e => Raise e
    end
  | ConvS :: fmt', [] => Raise TypeError
  | ConvS :: fmt', a :: args' =>
    match str_mod fmt' args' with
    | Ok rest => Ok (String.append a rest)
    | Raise e => Raise e
    end
  end.

(** [name = value]. *)
Definition assign (name : string) (value : pyobj)
  : M (gmap string pyobj) unit :=
  λ ns, (Ok tt, <[name := value]> ns).

(** The double quote character. *)
Definition dquote : string :=
  String (Ascii.Ascii false true false false false true false false) EmptyString.

(** The statements of the module, from [project] on.  [exec] runs the
    package's [prism/__version__.py], which binds [prism_version]; the
    names bound by the import statements are no settings and are left
    out. *)
Definition module (prism_version : string) : M (gmap string pyobj) unit :=
  let project := "PRISM" in
  assign "project" (Str project);;
  assign "copyright" (Str "2019, Ellert van der Velden");;
  let author := "Ellert van der Velden" in
  assign "author" (Str author);;
  assign "version" (Str "latest");;
  assign "prism_version" (Str prism_version);;
  let release := prism_version in
  assign "release" (Str release);;
  assign "needs_sphinx" (Str "1.8");;
  assign "extensions" (List [
    Str "sphinx.ext.autodoc";
    Str "sphinx.ext.coverage";
    Str "sphinx.ext.mathjax";
    Str "sphinx.ext.viewcode";
    Str "sphinx.ext.napoleon";
    Str "sphinx.ext.intersphinx"]);;
  assign "intersphinx_mapping" (Dict [
    ("python", Tuple [Str "https://docs.python.org/3"; None_]);
    ("numpy", Tuple [Str "https://docs.scipy.org/doc/numpy"; None_]);
    ("mpi4py", Tuple [Str "https://mpi4py.readthedocs.io/en/stable"; None_]);
    ("matplotlib", Tuple [Str "https://matplotlib.org"; None_]);
    ("h5py", Tuple [Str "https://h5py.readthedocs.io/en/stable"; None_])]);;
  assign "autodoc_default_options" (Dict [
    ("members", None_);
    ("private-members", None_)]);;
  assign "autodoc_member_order" (Str "groupwise");;
  assign "autodoc_inherit_docstrings" (Bool false);;
  assign "napoleon_include_init_with_doc" (Bool true);;
  assign "napoleon_use_admonition_for_notes" (Bool true);;
  assign "napoleon_use_ivar" (Bool true);;
  assign "napoleon_use_param" (Bool false);;
  assign "napoleon_use_keyword" (Bool false);;
  assign "napoleon_use_rtype" (Bool false);;
  assign "napoleon_custom_sections" (List [
    Tuple [Str "Optional"; Str "Other Parameters"];
    Tuple [Str "Returns (if ndim(sam_set) > 1)"; Str "Returns"];
    Tuple [Str "Returns (if `figure` is *False*)"; Str "Returns"];
    Tuple [Str "Dict variables"; Str "Keyword Arguments"];
    Str "Description";
    Str "Generates";
    Str "Generates (if `figure` is *True*)";
    Str "Generates (for every emulator system)";
    Str "Props";
    Str "Formatting data_idx";
    Str "Notes (model_parameters)";
    Str "Notes (model_data)";
    Str "Prints (if ndim(sam_set) == 1)"]);;
  assign "templates_path" (List [Str "_templates"]);;
  assign "source_suffix" (Str ".rst");;
  let master_doc := "index" in
  assign "master_doc" (Str master_doc);;
  assign "language" None_;;
  assign "exclude_patterns" (List []);;
  assign "highlight_language" (Str "default");;
  assign "pygments_style" (Str "sphinx");;
  assign "add_function_parentheses" (Bool true);;
  assign "add_module_names" (Bool true);;
  assign "show_authors" (Bool true);;
  assign "numfig" (Bool true);;
  assign "numfig_format" (Dict [
    ("figure", Str "Fig. %s");
    ("table", Str "Tab. %s");
    ("code-block", Str "Lst. %s");
    ("section", Str "Sec. %s")]);;
  assign "html_theme" (Str "sphinx_rtd_theme");;
  assign "html_theme_options" (Dict [
    ("prev_next_buttons_location", Str "both");
    ("collapse_navigation", Bool false);
    ("sticky_navigation", Bool false);
    ("includehidden", Bool false);
    ("titles_only", Bool false)]);;
  html_title ← eval (str_mod [ConvS; Text " documentation"] [project; release]);
  assign "html_title" (Str html_title);;
  assign "html_last_updated_fmt" (Str "%a %d %b %Y");;
  assign "html_static_path" (List [Str "_static"]);;
  assign "html_use_opensearch" (Str "https://prism-tool.readthedocs.io/en/latest");;
  assign "html_split_index" (Bool true);;
  assign "html_favicon" (Str "py.png");;
  assign "html_baseurl" (Str "https://prism-tool.readthedocs.io/en/latest");;
  assign "html_extra_path" (List [Str "_static/google3ccf0e77d0aa4c22.html"]);;
  assign "htmlhelp_basename" (Str "PRISMdoc");;
  assign "latex_elements" (Dict []);;
  assign "latex_documents" (List [
    Tuple [Str master_doc; Str "PRISM.tex"; Str html_title;
           Str author; Str "manual"]]);;
  assign "man_pages" (List [
    Tuple [Str master_doc; Str project; Str html_title; List [Str author];
           Int 1]]);;
  assign "texinfo_documents" (List [
    Tuple [Str master_doc; Str project; Str html_title;
           Str author; Str project;
           Str (String.append dquote (String.append
             "Probabilistic Regression Instrument for Simulating Models"
             dquote));
           Str "Miscellaneous"]]).

(** The names the module assigns after [html_theme_options]. *)
Definition names_after_html_theme_options : list string :=
  [ "html_title"; "html_last_updated_fmt"; "html_static_path";
    "html_use_opensearch"; "html_split_index"; "html_favicon";
    "html_baseurl"; "html_extra_path"; "htmlhelp_basename";
    "latex_elements"; "latex_documents"; "man_pages";
    "texinfo_documents" ].

End conf.

(** A binary64 value that is a zero or a finite non-zero number:
    neither an infinity nor NaN. *)
Definition SFfinite (x : spec_float) : Prop :=
  match x with
  | S754_zero _ | S754_finite _ _ _ => True
  | _ => False
  end.

(** Every key of a dict with numeric keys occurs once: no two of them
    compare equal. *)
Fixpoint keys_distinct (keys : list float) : bool :=
  match keys with
  | [] => true
  | k :: keys' => forallb (λ k', negb (k =? k')%float) keys' && keys_distinct keys'
  end.

(** A computation that leaves every object of the store as it found
    it, whatever its outcome. *)
Definition readonly {S A} (m : M S A) : Prop := ∀ s, (m s).2 = s.

(** Requests used as instances below: the example of the
    documentation, a parameter assignment without ['A'], one without
    ['B'], and a coordinate sequence holding a string. *)
Definition example_request : @objects unit :=
  Objects tt {[ "A" := PyFloat 3; "B" := PyFloat 1.5 ]}
    [PyFloat 1; PyFloat 2.5; PyFloat (-2)].


Definition request_without_B : @objects unit :=
  Objects tt {[ "A" := PyFloat 3 ]} [PyFloat 1].



(** A request whose parameters and coordinates are ints, with a float
    intercept; the same with a float added to the coordinates; and one
    of small ints only. *)
Definition int_request : @objects unit :=
  Objects tt {[ "A" := PyFloat 0; "B" := PyInt 4 eq_refl ]}
    [PyInt (2 ^ 62) eq_refl].

Definition mixed_request : @objects unit :=
  Objects tt {[ "A" := PyFloat 0; "B" := PyInt 4 eq_refl ]}
    [PyInt (2 ^ 62) eq_refl; PyFloat 0.5].

Definition small_int_request : @objects unit :=
  Objects tt {[ "A" := PyInt 3 eq_refl; "B" := PyInt 2 eq_refl ]}
    [PyInt 1 eq_refl; PyInt (-2) eq_refl].

(** ** The specification's reading of [A + B·x]

    What the Python expression [A + B * x] evaluates to on numbers:
    ints are unbounded and their arithmetic is exact; an int that meets
    a float is converted to it, which fails beyond the range of
    binary64 ([OverflowError]: no value). *)

Module python.

Inductive number :=
| Int (n : Z)
| Float (f : float).

Definition to_float (n : Z) : option float :=
  let f := float_of_Z n in
  if is_finite f then Some f else None.

Definition mul (x y : number) : option number :=
  match x, y with
  | Int m, Int n => Some (Int (m * n))
  | Int m, Float g => f ← to_float m; Some (Float (f * g))
  | Float f, Int n => g ← to_float n; Some (Float (f * g))
  | Float f, Float g => Some (Float (f * g))
  end.

Definition add (x y : number) : option number :=
  match x, y with
  | Int m, Int n => Some (Int (m + n))
  | Int m, Float g => f ← to_float m; Some (Float (f + g))
  | Float f, Int n => g ← to_float n; Some (Float (f + g))
  | Float f, Float g => Some (Float (f + g))
  end.

(** [A + B * x]. *)
Definition line (A B x : number) : option number :=
  p ← mul B x; add A p.

(** A float whose value is the integer [n]. *)
Definition float_is_Z (f : float) (n : Z) : bool :=
  match Prim2SF f with
  | S754_zero _ => (n =? 0)%Z
  | S754_finite s m e =>
    if (0 <=? e)%Z then (n =? cond_Zopp s (Zpos m) * 2 ^ e)%Z
    else (n * 2 ^ (- e) =? cond_Zopp s (Zpos m))%Z
  | S754_infinity _ | S754_nan => false
  end.

(** Two numbers of the same value: the same int, the same float, or an
    int and a float of that value. *)
Definition same (x y : number) : Prop :=
  match x, y with
  | Int m, Int n => m = n
  | Float f, Float g => f = g
  | Int m, Float g => float_is_Z g m = true
  | Float f, Int n => float_is_Z f n = true
  end.

End python.

Definition number_of (v : pyval) : option python.number :=
  match v with
  | PyInt n _ => Some (python.Int n)
  | PyFloat f => Some (python.Float f)
  | PyStr _ => None
  end.

(** The items of a numeric array. *)
Definition items_of (a : np.ndarray) : list python.number :=
  match a with
  | np.Int64 items => python.Int <$> items
  | np.Float64 items => python.Float <$> items
  | np.Unicode _ => []
  end.

(** The statement of the specification at one request: for numbers
    [A], [B] and coordinates [x], [call_model] returns one value per
    coordinate, the value of [A + B * x] at it. *)
Definition returns_line {Self} (emul_i : Z) (s : @objects Self) : Prop :=
  ∀ A B x,
    par_set s !! "A" ≫= number_of = Some A →
    par_set s !! "B" ≫= number_of = Some B →
    mapM number_of (data_idx s) = Some x →
    ∃ vals, (call_model emul_i s).1 = Ok vals ∧
      Forall2 (λ v xi, ∃ e, python.line A B xi = Some e ∧ python.same v e)
        (items_of vals) x.

(** ** Binary64 arithmetic *)

(** Multiplication commutes: the product written [B * x] in the
    specification is the product [x * B] of the source. *)
Lemma float_mul_comm (x y : float) : (x * y = y * x)%float.
Proof.
  rewrite <- (SF2Prim_Prim2SF (x * y)), <- (SF2Prim_Prim2SF (y * x)).
  f_equal. rewrite !mul_spec.
  destruct (Prim2SF x) as [sx|sx| |sx mx ex], (Prim2SF y) as [sy|sy| |sy my ey];
    simpl; try reflexivity; try (rewrite xorb_comm; reflexivity).
  by rewrite xorb_comm, Pos.mul_comm, Z.add_comm.
Qed.

(** ** The NumPy fragment *)


Lemma as_float_number (v : pyval) :
  is_Some (np.as_float v) ↔ is_number v = true.
Proof. destruct v; simpl; split; intros H; by try inversion H. Qed.

Lemma mapM_as_float_numbers (seq : list pyval) :
  Forall (λ v, is_number v = true) seq → is_Some (mapM np.as_float seq).
Proof.
  intros H. apply mapM_is_Some. eapply Forall_impl; [exact H|].
  intros v Hv. by apply as_float_number.
Qed.

Lemma mapM_as_float_floats (x : list float) :
  mapM np.as_float (PyFloat <$> x) = Some x.
Proof. by apply mapM_fmap_Some. Qed.


Lemma mapM_as_int_float (seq : list pyval) (ints : list Z) :
  mapM np.as_int seq = Some ints →
  mapM np.as_float seq = Some (float_of_Z <$> ints).
Proof.
  intros H. apply mapM_Some in H. apply mapM_Some.
  induction H as [|v n seq ints Hv _ IH]; simpl; constructor; [|done].
  by destruct v; simplify_eq/=.
Qed.

Lemma mapM_as_int_has_float (seq : list pyval) (f : float) :
  PyFloat f ∈ seq → mapM np.as_int seq = None.
Proof. intros Hin. apply mapM_None, Exists_exists. by exists (PyFloat f). Qed.

Lemma array_ints (seq : list pyval) (ints : list Z) :
  seq ≠ [] → mapM np.as_int seq = Some ints → np.array seq = np.Int64 ints.
Proof.
  intros Hne Hi. unfold np.array.
  rewrite (mapM_as_int_float _ _ Hi). destruct seq; [done|]. by rewrite Hi.
Qed.

Lemma array_float64 (seq : list pyval) (floats : list float) :
  mapM np.as_float seq = Some floats →
  seq = [] ∨ mapM np.as_int seq = None →
  np.array seq = np.Float64 floats.
Proof.
  intros Hf H. unfold np.array. rewrite Hf.
  destruct H as [->|Hi]; [done|]. destruct seq; [done|]. by rewrite Hi.
Qed.

Lemma array_floats (x : list float) : np.array (PyFloat <$> x) = np.Float64 x.
Proof.
  apply array_float64; [apply mapM_as_float_floats|].
  destruct x as [|f x]; [by left|right].
  apply (mapM_as_int_has_float _ f). simpl. apply list_elem_of_here.
Qed.


(** The array of a sequence of numbers: [int64] or [float64]. *)
Lemma array_numbers (seq : list pyval) (floats : list float) :
  mapM np.as_float seq = Some floats →
  (∃ ints, seq ≠ [] ∧ mapM np.as_int seq = Some ints ∧
     np.array seq = np.Int64 ints) ∨
  ((seq = [] ∨ mapM np.as_int seq = None) ∧
     np.array seq = np.Float64 floats).
Proof.
  intros Hf. destruct seq as [|v seq].
  - right. split; [by left|]. apply array_float64; auto.
  - destruct (mapM np.as_int (v :: seq)) as [ints|] eqn:Hi.
    + left. exists ints. split; [done|]. split; [done|].
      by apply array_ints.
    + right. split; [by right|]. apply array_float64; auto.
Qed.



Lemma shape_array (seq : list pyval) : np.shape (np.array seq) = length seq.
Proof.
  destruct (mapM np.as_float seq) as [floats|] eqn:Hf.
  - destruct (array_numbers seq floats Hf) as [(ints & _ & Hi & ->)|[_ ->]];
      simpl; symmetry; by eapply length_mapM.
  - unfold np.array. by rewrite Hf.
Qed.

(** [1e-4 * np.ones_like(seq)] on numbers, ints or floats. *)
Lemma rmul_ones_like (seq : list pyval) (floats : list float) :
  mapM np.as_float seq = Some floats →
  np.rmul (PyFloat 1e-4) (np.ones_like seq)
  = Ok (np.Float64 (replicate (length seq) 1e-4%float)).
Proof.
  intros Hf. unfold np.ones_like.
  destruct (array_numbers seq floats Hf) as [(ints & _ & Hi & ->)|[_ ->]];
    simpl; rewrite fmap_replicate; do 3 f_equal;
    symmetry; by eapply length_mapM.
Qed.

(** The product and the sum keep the shape. *)
Lemma shape_mul (x p : np.ndarray) (b : pyval) :
  np.mul x b = Ok p →
  np.shape p = np.shape x ∧ ∀ items, x ≠ np.Unicode items.
Proof.
  destruct x as [ns|fs|us], b as [k Hk|B|t]; simpl; intros [= <-];
    simpl; by rewrite length_fmap.
Qed.

Lemma shape_radd (a : pyval) (p vals : np.ndarray) :
  np.radd a p = Ok vals → np.shape vals = np.shape p.
Proof.
  destruct a as [m Hm|A|t], p as [ns|fs|us]; simpl; intros [= <-];
    simpl; by rewrite length_fmap.
Qed.

(** ** The store monad *)

Section monad.
Context {S : Type}.

Lemma bind_ok {A B} (m : M S A) (k : A → M S B) s a s' :
  m s = (Ok a, s') → (m ≫= k) s = k a s'.
Proof. unfold mbind, M_bind. by intros ->. Qed.

Lemma bind_raise {A B} (m : M S A) (k : A → M S B) s e s' :
  m s = (Raise e, s') → (m ≫= k) s = (Raise e, s').
Proof. unfold mbind, M_bind. by intros ->. Qed.

Lemma readonly_ret {A} (a : A) : readonly (mret a : M S A).
Proof. by intros s. Qed.

Lemma readonly_eval {A} (r : result A) : readonly (eval r : M S A).
Proof. by intros s. Qed.

Lemma readonly_call {A B} (f : A → B) (var : S → A) : readonly (call f var).
Proof. by intros s. Qed.

Lemma readonly_getitem (var : S → gmap string pyval) key :
  readonly (getitem var key).
Proof. by intros s. Qed.

Lemma readonly_bind {A B} (m : M S A) (k : A → M S B) :
  readonly m → (∀ a, readonly (k a)) → readonly (m ≫= k).
Proof.
  intros Hm Hk s. specialize (Hm s). unfold mbind, M_bind.
  destruct (m s) as [[a|e] s']; simpl in *; subst s'; [apply Hk | done].
Qed.

End monad.

Create HintDb readonly.
#[export] Hint Resolve readonly_ret readonly_eval readonly_call
  readonly_getitem : readonly.

(** ** The methods of LineLink *)
(** ** The methods of LineLink *)

Section properties.
Context {Self : Type}.
Implicit Types (s : @objects Self) (emul_i : Z).

(** The outcome of [call_model], statement by statement. *)
Lemma call_model_unfold emul_i s :
  call_model emul_i s =
    match dict_getitem (par_set s) "A" with
    | Raise e => (Raise e, s)
    | Ok a =>
      match dict_getitem (par_set s) "B" with
      | Raise e => (Raise e, s)
      | Ok b =>
        match np.mul (np.array (data_idx s)) b with
        | Raise e => (Raise e, s)
        | Ok p =>
          match np.radd a p with
          | Raise e => (Raise e, s)
          | Ok vals => (Ok vals, s)
          end
        end
      end
    end.
Proof.
  unfold call_model, getitem, call, eval, mbind, M_bind, mret, M_ret.
  destruct (dict_getitem (par_set s) "A") as [a|e]; [|done].
  destruct (dict_getitem (par_set s) "B") as [b|e]; [|done].
  destruct (np.mul _ b) as [p|e]; [|done].
  by destruct (np.radd a p) as [vals|e].
Qed.

Lemma get_md_var_unfold emul_i s :
  get_md_var emul_i s =
    (np.rmul (PyFloat 1e-4) (np.ones_like (data_idx s)), s).
Proof. reflexivity. Qed.

Lemma getitem_float (d : gmap string pyval) key (f : float) :
  d !! key = Some (PyFloat f) → dict_getitem d key = Ok (PyFloat f).
Proof. unfold dict_getitem. by intros ->. Qed.

(** [call_model] on numbers, in the order of the source: [A + x * B]. *)
Lemma call_model_floats emul_i s (A B : float) (x : list float) :
  par_set s !! "A" = Some (PyFloat A) →
  par_set s !! "B" = Some (PyFloat B) →
  data_idx s = PyFloat <$> x →
  call_model emul_i s = (Ok (np.Float64 ((λ xi, A + xi * B)%float <$> x)), s).
Proof.
  intros HA HB Hx. rewrite call_model_unfold.
  rewrite (getitem_float _ _ _ HA), (getitem_float _ _ _ HB), Hx, array_floats.
  simpl. by rewrite <- list_fmap_compose.
Qed.


Lemma wrap64_in_range (n : Z) : in_int64 n = true → wrap64 n = n.
Proof.
  unfold in_int64, wrap64. rewrite andb_true_iff, Z.leb_le, Z.ltb_lt.
  change (2 ^ 63)%Z with 9223372036854775808%Z.
  change (2 ^ 64)%Z with 18446744073709551616%Z.
  intros [H1 H2]. rewrite Z.mod_small; lia.
Qed.

Lemma getitem_ok (d : gmap string pyval) key (v : pyval) :
  d !! key = Some v → dict_getitem d key = Ok v.
Proof. unfold dict_getitem. by intros ->. Qed.

(** [call_model] where the product is taken in [float64]: a float for
    [B], or a [float64] array of coordinates. *)
Lemma call_model_float64 emul_i s (a b : pyval) (floats : list float)
    (A' B' : float) :
  par_set s !! "A" = Some a →
  par_set s !! "B" = Some b →
  np.as_float a = Some A' →
  np.as_float b = Some B' →
  mapM np.as_float (data_idx s) = Some floats →
  (∃ B, b = PyFloat B) ∨ np.array (data_idx s) = np.Float64 floats →
  call_model emul_i s
  = (Ok (np.Float64 ((λ xi, A' + xi * B')%float <$> floats)), s).
Proof.
  intros HA HB Ha Hb Hf H. rewrite call_model_unfold.
  rewrite (getitem_ok _ _ _ HA), (getitem_ok _ _ _ HB).
  destruct (array_numbers _ _ Hf) as [(ints & Hne & Hi & E)|[_ E]]; rewrite E.
  - destruct H as [[B ->]|H]; [|congruence].
    apply mapM_as_int_float in Hi. rewrite Hf in Hi. injection Hi as ->.
    injection Hb as <-.
    destruct a as [m Hm|A|t]; simplify_eq/=; by rewrite <- !list_fmap_compose.
  - destruct b as [k Hk|B|tb], a as [m Hm|A|ta]; simplify_eq/=;
      by rewrite <- !list_fmap_compose.
Qed.

(** [call_model] where the product is taken in [int64]. *)
Lemma call_model_int64 emul_i s (a : pyval) (k : Z) (Hk : in_int64 k = true)
    (ints : list Z) :
  par_set s !! "A" = Some a →
  par_set s !! "B" = Some (PyInt k Hk) →
  data_idx s ≠ [] →
  mapM np.as_int (data_idx s) = Some ints →
  call_model emul_i s =
    (match a with
     | PyInt m _ => Ok (np.Int64 ((λ n, wrap64 (m + wrap64 (n * k))) <$> ints))
     | PyFloat A =>
       Ok (np.Float64 ((λ n, A + float_of_Z (wrap64 (n * k)))%float <$> ints))
     | PyStr _ => Raise TypeError
     end, s).
Proof.
  intros HA HB Hne Hi. rewrite call_model_unfold.
  rewrite (getitem_ok _ _ _ HA), (getitem_ok _ _ _ HB), (array_ints _ _ Hne Hi).
  destruct a as [m Hm|A|t]; simpl; by rewrite <- ?list_fmap_compose.
Qed.

Lemma mapM_number_of_ints (seq : list pyval) (ints : list Z) :
  mapM np.as_int seq = Some ints →
  mapM number_of seq = Some (python.Int <$> ints).
Proof.
  intros H. apply mapM_Some in H. apply mapM_Some.
  induction H as [|v n seq ints Hv _ IH]; simpl; constructor; [|done].
  by destruct v; simplify_eq/=.
Qed.

Lemma mapM_number_of_floats (x : list float) :
  mapM number_of (PyFloat <$> x) = Some (python.Float <$> x).
Proof. apply mapM_Some. apply Forall2_fmap, Forall_Forall2_diag, Forall_true. done. Qed.

(** The specification's statement holds on floats. *)
Lemma returns_line_floats emul_i s (A B : float) (x : list float) :
  par_set s !! "A" = Some (PyFloat A) →
  par_set s !! "B" = Some (PyFloat B) →
  data_idx s = PyFloat <$> x →
  returns_line emul_i s.
Proof.
  intros HA HB Hx A0 B0 x0.
  rewrite (call_model_floats emul_i s A B x HA HB Hx).
  rewrite HA, HB, Hx, mapM_number_of_floats. simpl.
  intros [= <-] [= <-] [= <-]. eexists. split; [done|]. simpl.
  apply Forall2_fmap, Forall2_fmap_l, Forall_Forall2_diag, Forall_true.
  intros xi. eexists. split; [done|]. simpl. by rewrite float_mul_comm.
Qed.

(** The specification's statement holds on ints while no [int64]
    operation overflows. *)
Lemma returns_line_ints emul_i s (m k : Z) (Hm : in_int64 m = true)
    (Hk : in_int64 k = true) (ints : list Z) :
  par_set s !! "A" = Some (PyInt m Hm) →
  par_set s !! "B" = Some (PyInt k Hk) →
  data_idx s ≠ [] →
  mapM np.as_int (data_idx s) = Some ints →
  Forall (λ n, in_int64 (k * n) = true ∧ in_int64 (m + k * n) = true) ints →
  returns_line emul_i s.
Proof.
  intros HA HB Hne Hi Hov A0 B0 x0.
  rewrite (call_model_int64 emul_i s _ k Hk ints HA HB Hne Hi).
  rewrite HA, HB, (mapM_number_of_ints _ _ Hi). simpl.
  intros [= <-] [= <-] [= <-]. eexists. split; [done|]. simpl.
  apply Forall2_fmap, Forall2_fmap_l, Forall_Forall2_diag.
  eapply Forall_impl; [exact Hov|]. intros n [H1 H2].
  eexists. split; [done|]. simpl.
  rewrite (Z.mul_comm n k), (wrap64_in_range _ H1). by apply wrap64_in_range.
Qed.

(** C1 (amended): for every coordinate sequence of numbers and every
    parameter assignment holding numbers ['A'] and ['B'] (floats, or
    ints of the [int64] range), [call_model] returns one item per
    coordinate, [A + B * x] in the arithmetic NumPy takes from the
    types.  On floats it is the binary64 value of the expression
    [A + B * x], bit for bit.  With a float for [B] or among the
    coordinates (or no coordinate) it is that binary64 value with every
    int converted to [float64].  With ints for [B] and for every
    coordinate the product is an [int64] product, which wraps around,
    and [A] is added in [int64] (an int) or in binary64 to the converted
    product (a float); where no [int64] operation overflows the items
    are the integers [A + B * x].  On floats, and on ints without
    overflow, the statement of the specification holds. *)
Theorem call_model_linear emul_i s (a b : pyval) (floats : list float) :
  par_set s !! "A" = Some a →
  par_set s !! "B" = Some b →
  is_number a = true →
  is_number b = true →
  mapM np.as_float (data_idx s) = Some floats →
  ∃ vals : np.ndarray,
    call_model emul_i s = (Ok vals, s) ∧
    np.shape vals = length (data_idx s) ∧
    (∀ (A B : float) (x : list float),
       a = PyFloat A → b = PyFloat B → data_idx s = PyFloat <$> x →
       vals = np.Float64 ((λ xi, A + B * xi)%float <$> x) ∧
       returns_line emul_i s) ∧
    (∀ A' B' : float,
       np.as_float a = Some A' → np.as_float b = Some B' →
       (∃ B, b = PyFloat B) ∨ (∃ f, PyFloat f ∈ data_idx s) ∨
         data_idx s = [] →
       vals = np.Float64 ((λ xi, A' + B' * xi)%float <$> floats)) ∧
    (∀ (k : Z) (Hk : in_int64 k = true) (ints : list Z),
       b = PyInt k Hk → data_idx s ≠ [] →
       mapM np.as_int (data_idx s) = Some ints →
       (∀ (m : Z) (Hm : in_int64 m = true), a = PyInt m Hm →
          vals = np.Int64 ((λ n, wrap64 (m + wrap64 (k * n))) <$> ints) ∧
          (Forall (λ n, in_int64 (k * n) = true ∧
                        in_int64 (m + k * n) = true) ints →
           vals = np.Int64 ((λ n, m + k * n)%Z <$> ints) ∧
           returns_line emul_i s)) ∧
       (∀ A : float, a = PyFloat A →
          vals = np.Float64
            ((λ n, A + float_of_Z (wrap64 (k * n)))%float <$> ints))).
Proof.
  intros HA HB Ha Hb Hf.
  assert (∃ vals, call_model emul_i s = (Ok vals, s)) as [vals E].
  { destruct (array_numbers _ _ Hf) as [(ints & Hne & Hi & Ea)|[_ Ea]].
    - destruct b as [k Hk|B|tb]; [| |done].
      + rewrite (call_model_int64 emul_i s a k Hk ints HA HB Hne Hi).
        destruct a; [by eexists|by eexists|done].
      + destruct a as [m Hm|A|ta]; [| |done];
          erewrite call_model_float64; eauto.
    - destruct a as [m Hm|A|ta], b as [k Hk|B|tb]; try done;
        erewrite call_model_float64; eauto.
  }
  exists vals. split; [done|]. split; [|split; [|split]].
  - pose proof (call_model_unfold emul_i s) as U. rewrite E in U.
    rewrite (getitem_ok _ _ _ HA), (getitem_ok _ _ _ HB) in U.
    destruct (np.mul _ b) as [p|] eqn:Ep; [|done].
    destruct (np.radd a p) as [v|] eqn:Ev; [|done].
    injection U as ->.
    rewrite (shape_radd _ _ _ Ev). apply shape_mul in Ep as [-> _].
    apply shape_array.
  - intros A B x -> -> Hx. split; [|by eapply returns_line_floats].
    rewrite (call_model_floats emul_i s A B x HA HB Hx) in E.
    injection E as <-. f_equal. apply list_fmap_ext.
    intros i xi _. by rewrite float_mul_comm.
  - intros A' B' HA' HB' H.
    rewrite (call_model_float64 emul_i s a b floats A' B' HA HB HA' HB' Hf) in E.
    + injection E as <-. f_equal. apply list_fmap_ext.
      intros i xi _. by rewrite float_mul_comm.
    + destruct H as [H|[[f Hin]|Hnil]]; [by left|right..].
      * apply array_float64; [done|right].
        by apply (mapM_as_int_has_float _ f).
      * apply array_float64; [done|by left].
  - intros k Hk ints -> Hne Hi.
    rewrite (call_model_int64 emul_i s a k Hk ints HA HB Hne Hi) in E.
    split.
    + intros m Hm ->. injection E as <-.
      assert (np.Int64 ((λ n, wrap64 (m + wrap64 (n * k))) <$> ints)
              = np.Int64 ((λ n, wrap64 (m + wrap64 (k * n))) <$> ints)) as ->.
      { f_equal. apply list_fmap_ext. intros i n _. by rewrite Z.mul_comm. }
      split; [done|]. intros Hov. split.
      * f_equal. apply list_fmap_ext. intros i n Hn.
        apply list_elem_of_lookup_2 in Hn.
        rewrite Forall_forall in Hov. destruct (Hov n Hn) as [H1 H2].
        rewrite (wrap64_in_range _ H1). by apply wrap64_in_range.
      * by eapply returns_line_ints.
    + intros A ->. injection E as <-. f_equal. apply list_fmap_ext.
      intros i n _. by rewrite Z.mul_comm.
Qed.


(** C3: on the coordinates [[1, 2.5, -2]] with [A = 3] and [B = 1.5],
    [call_model] returns [[4.5, 6.75, 0]] and [get_md_var] returns
    [[1e-4, 1e-4, 1e-4]]. *)
Theorem example_scenario emul_i (self : Self) :
  let s :=
    Objects self {[ "A" := PyFloat 3; "B" := PyFloat 1.5 ]}
      [PyFloat 1; PyFloat 2.5; PyFloat (-2)] in
  call_model emul_i s = (Ok (np.Float64 [4.5; 6.75; 0]%float), s) ∧
  get_md_var emul_i s = (Ok (np.Float64 [1e-4; 1e-4; 1e-4]%float), s).
Proof.
  intros s. split.
  - rewrite call_model_unfold. reflexivity.
  - rewrite get_md_var_unfold. reflexivity.
Qed.

(** C4: every call of [get_default_model_parameters] returns the same
    mapping of exactly two parameters, ['A'] with bounds [-10, 10] and
    estimate 3 and ['B'] with bounds [0, 5] and estimate 1.5, and every
    parameter of the mapping has lower bound <= estimate <= upper
    bound. *)
Theorem default_parameters (self : Self) :
  ∃ par_dict : gmap string (list float),
    get_default_model_parameters self = (Ok par_dict, self) ∧
    dom par_dict = ({[ "A"; "B" ]} : gset string) ∧
    par_dict !! "A" = Some [-10; 10; 3]%float ∧
    par_dict !! "B" = Some [0; 5; 1.5]%float ∧
    map_Forall (λ _ par, ∃ lower upper estimate : float,
      par = [lower; upper; estimate] ∧
      (lower <=? estimate)%float = true ∧
      (estimate <=? upper)%float = true) par_dict.
Proof.
  eexists. split; [reflexivity|]. split; [|split; [done|split; [done|]]].
  - rewrite dom_insert_L, dom_singleton_L. done.
  - apply map_Forall_insert; [done|]. split.
    + by exists (-10)%float, 10%float, 3%float.
    + apply map_Forall_singleton. by exists 0%float, 5%float, 1.5%float.
Qed.

(** C5: every call of [get_default_model_data] returns the same mapping
    of exactly three entries, 1 -> (4.5, 0.1), 2.5 -> (6.8, 0.1) and
    -2 -> (0, 0.1), and the uncertainty of every entry is
    non-negative. *)
Theorem default_data (self : Self) :
  ∃ data_dict : list (float * list float),
    get_default_model_data self = (Ok data_dict, self) ∧
    length data_dict = 3%nat ∧
    keys_distinct data_dict.*1 = true ∧
    dict_get data_dict 1%float = Some [4.5; 0.1]%float ∧
    dict_get data_dict 2.5%float = Some [6.8; 0.1]%float ∧
    dict_get data_dict (-2)%float = Some [0; 0.1]%float ∧
    Forall (λ entry, ∃ value uncertainty : float,
      entry.2 = [value; uncertainty] ∧
      (0 <=? uncertainty)%float = true) data_dict.
Proof.
  eexists. split; [reflexivity|]. repeat split.
  repeat (apply Forall_cons; split; [by eexists _, _|]). apply Forall_nil_2.
Qed.

(** C6: the iteration index is not used: two runs that differ in it
    alone give the same result, for [call_model] and for
    [get_md_var]. *)
Theorem emul_i_unused (i1 i2 : Z) s :
  call_model i1 s = call_model i2 s ∧
  get_md_var i1 s = get_md_var i2 s.
Proof. by rewrite !call_model_unfold, !get_md_var_unfold. Qed.

(** C8: [call_model] and [get_md_var] leave the objects they are given
    as they found them, whether they return or raise: the instance, the
    parameter assignment and the coordinate sequence are the same after
    the call as before it. *)
Theorem methods_readonly emul_i s :
  (∀ r s', call_model emul_i s = (r, s') →
     self s' = self s ∧ par_set s' = par_set s ∧ data_idx s' = data_idx s) ∧
  (∀ r s', get_md_var emul_i s = (r, s') →
     self s' = self s ∧ par_set s' = par_set s ∧ data_idx s' = data_idx s) ∧
  readonly (call_model (Self:=Self) emul_i) ∧
  readonly (get_md_var (Self:=Self) emul_i).
Proof.
  assert (readonly (call_model (Self:=Self) emul_i)) as Hc.
  { unfold call_model. repeat (apply readonly_bind; [|intros ?]);
      auto with readonly. }
  assert (readonly (get_md_var (Self:=Self) emul_i)) as Hg.
  { unfold get_md_var. apply readonly_bind; [|intros ?]; auto with readonly. }
  repeat apply conj; [| |done|done].
  - intros r s' E. specialize (Hc s). rewrite E in Hc. simpl in Hc. by subst s'.
  - intros r s' E. specialize (Hg s). rewrite E in Hg. simpl in Hg. by subst s'.
Qed.


End properties.

(** C9: constructing a [LineLink] hands the positional and the keyword
    arguments it was given to the constructor of [ModelLink], unchanged,
    and does nothing else: outcome and instance state are those of the
    base constructor on the same arguments. *)
Theorem init_forwards {Self V : Type}
    (ModelLink_init : list V → gmap string V → M Self unit)
    (args : list V) (kwargs : gmap string V) (self : Self) :
  LineLink_init ModelLink_init args kwargs self
  = ModelLink_init args kwargs self.
Proof.
  unfold LineLink_init, pass.
  exact (bind_ok (mret tt) (λ _, ModelLink_init args kwargs) self tt self eq_refl).
Qed.

(** ** Instances *)

(** The arithmetic is binary64: with [A = 0.1], [B = 0.2] and the
    coordinate 1 the result is the float the Python expression
    [0.1 + 0.2 * 1] evaluates to, which is not the float [0.3]. *)
Example call_model_binary64 :
  let s := Objects tt {[ "A" := PyFloat 0.1; "B" := PyFloat 0.2 ]} [PyFloat 1] in
  call_model 0 s = (Ok (np.Float64 [0.30000000000000004]%float), s) ∧
  (0.30000000000000004 =? 0.3)%float = false.
Proof. split; reflexivity. Qed.

(** C1, as the specification states it, fails where NumPy multiplies in
    [int64].  On the coordinate [2^62] with [A = 0.0] and [B = 4] the
    product wraps around to 0 and [call_model] returns [[0.0]], whereas
    [A + B * x] is 18446744073709551616.0. *)
Lemma call_model_linear_counterexample :
  call_model 0 int_request = (Ok (np.Float64 [0]%float), int_request) ∧
  python.line (python.Float 0) (python.Int 4) (python.Int (2 ^ 62))
  = Some (python.Float 1.8446744073709552e19) ∧
  ¬ returns_line 0 int_request.
Proof.
  split; [reflexivity|]. split; [reflexivity|]. intros H.
  destruct (H (python.Float 0) (python.Int 4) [python.Int (2 ^ 62)]
              eq_refl eq_refl eq_refl) as (vals & E & F).
  change ((call_model 0 int_request).1) with (Ok (np.Float64 [0%float])) in E.
  injection E as <-. simpl in F.
  apply Forall2_cons_1 in F as [(e & He & Hs) _].
  change (python.line (python.Float 0) (python.Int 4) (python.Int (2 ^ 62)))
    with (Some (python.Float 1.8446744073709552e19)) in He.
  injection He as <-. simpl in Hs.
  assert ((0 =? 1.8446744073709552e19)%float = true) as Heq
    by (rewrite <- Hs; reflexivity).
  vm_compute in Heq. discriminate.
Qed.

Lemma call_model_linear_witness :
  par_set int_request !! "A" = Some (PyFloat 0) ∧
  par_set int_request !! "B" = Some (PyInt 4 eq_refl) ∧
  is_number (PyFloat 0) = true ∧
  is_number (PyInt 4 eq_refl) = true ∧
  mapM np.as_float (data_idx int_request) = Some [float_of_Z (2 ^ 62)] ∧
  call_model 0 int_request = (Ok (np.Float64 [0]%float), int_request) ∧
  np.shape (np.Float64 [0]%float) = length (data_idx int_request).
Proof.
  do 5 (split; [reflexivity|]).
  destruct (call_model_linear 0 int_request (PyFloat 0) (PyInt 4 eq_refl)
              [float_of_Z (2 ^ 62)] eq_refl eq_refl eq_refl eq_refl eq_refl)
    as (vals & E & Hshape & _ & _ & H).
  destruct (H 4%Z eq_refl [2 ^ 62]%Z eq_refl ltac:(discriminate) eq_refl)
    as [_ H'].
  rewrite (H' 0%float eq_refl) in E, Hshape. split; [exact E|exact Hshape].
Defined.



Lemma methods_readonly_witness :
  call_model 0 request_without_B
  = (Raise (KeyError "B"), request_without_B) ∧
  get_md_var 0 example_request
  = (Ok (np.Float64 [1e-4; 1e-4; 1e-4]%float), example_request) ∧
  (self request_without_B = self request_without_B ∧
   par_set request_without_B = par_set request_without_B ∧
   data_idx request_without_B = data_idx request_without_B) ∧
  (self example_request = self example_request ∧
   par_set example_request = par_set example_request ∧
   data_idx example_request = data_idx example_request).
Proof.
  split; [reflexivity|]. split; [reflexivity|]. split.
  - destruct (methods_readonly 0 request_without_B) as (H & _).
    apply (H (Raise (KeyError "B")) request_without_B). reflexivity.
  - destruct (methods_readonly 0 example_request) as (_ & H & _).
    apply (H (Ok (np.Float64 [1e-4; 1e-4; 1e-4]%float)) example_request).
    reflexivity.
Defined.



(** ** The outcomes of the two methods on numbers and on strings *)

Lemma mapM_as_float_app (d1 d2 : list pyval) (f1 f2 : list float) :
  mapM np.as_float d1 = Some f1 → mapM np.as_float d2 = Some f2 →
  mapM np.as_float (d1 ++ d2) = Some (f1 ++ f2).
Proof. rewrite !mapM_Some. apply Forall2_app. Qed.

Lemma array_not_Unicode (seq : list pyval) :
  (∀ items, np.array seq ≠ np.Unicode items) →
  ∃ floats, mapM np.as_float seq = Some floats.
Proof.
  intros H. destruct (mapM np.as_float seq) as [floats|] eqn:Hf; [eauto|].
  exfalso. apply (H seq). unfold np.array. by rewrite Hf.
Qed.

Section outcomes.
Context {Self : Type}.
Implicit Types (s : @objects Self) (emul_i : Z).

(** Where [call_model] returns, the coordinates are numbers and there
    is one value for each. *)
Lemma call_model_ok_inv emul_i s (vals : np.ndarray) :
  (call_model emul_i s).1 = Ok vals →
  np.shape vals = length (data_idx s) ∧
  ∃ floats, mapM np.as_float (data_idx s) = Some floats.
Proof.
  rewrite call_model_unfold.
  destruct (dict_getitem (par_set s) "A") as [a|]; [|done].
  destruct (dict_getitem (par_set s) "B") as [b|]; [|done].
  destruct (np.mul _ b) as [p|] eqn:Ep; [|done].
  destruct (np.radd a p) as [v|] eqn:Ev; [|done].
  simpl. intros [= <-]. apply shape_mul in Ep as [Hp Hu].
  rewrite (shape_radd _ _ _ Ev), Hp, shape_array.
  split; [done|]. by apply array_not_Unicode.
Qed.

Lemma get_md_var_numbers emul_i s (floats : list float) :
  mapM np.as_float (data_idx s) = Some floats →
  get_md_var emul_i s
  = (Ok (np.Float64 (replicate (length (data_idx s)) 1e-4%float)), s).
Proof.
  intros Hf. by rewrite get_md_var_unfold, (rmul_ones_like _ _ Hf).
Qed.

End outcomes.

(** ** More binary64 arithmetic

    [is_nan], [is_zero] and [is_finite] are Python's [math.isnan],
    [== 0] and [math.isfinite]. *)

Lemma SFeqb_refl (x : spec_float) : x ≠ S754_nan → SFeqb x x = true.
Proof.
  unfold SFeqb. destruct x as [s|s| |s m e]; simpl; try done.
  - by destruct s.
  - intros _. destruct s; rewrite Z.compare_refl, Pos.compare_cont_refl; done.
Qed.

Lemma is_nan_spec (x : float) : is_nan x = false ↔ Prim2SF x ≠ S754_nan.
Proof.
  unfold is_nan. rewrite FloatAxioms.eqb_spec. split.
  - intros H E. by rewrite E in H.
  - intros H. by rewrite SFeqb_refl.
Qed.

Lemma is_finite_spec (x : float) : is_finite x = true ↔ SFfinite (Prim2SF x).
Proof.
  unfold is_finite, is_nan, is_infinity.
  rewrite !FloatAxioms.eqb_spec, abs_spec.
  change (Prim2SF infinity) with (S754_infinity false).
  destruct (Prim2SF x) as [s|s| |s m e]; unfold SFeqb; simpl; try done.
  - by destruct s.
  - rewrite Z.compare_refl, Pos.compare_cont_refl. by destruct s.
Qed.

Lemma is_zero_spec (x : float) :
  is_zero x = true → ∃ s, Prim2SF x = S754_zero s.
Proof.
  unfold is_zero. rewrite FloatAxioms.eqb_spec.
  change (Prim2SF zero) with (S754_zero false).
  destruct (Prim2SF x) as [s|s| |s m e]; unfold SFeqb; simpl;
    [eauto|by destruct s|done|by destruct s].
Qed.

(** Rounding a non-negative mantissa never gives NaN. *)
Lemma shr_1_nonneg mrs : (0 ≤ shr_m mrs → 0 ≤ shr_m (shr_1 mrs))%Z.
Proof. destruct mrs as [[|[p|p|]|p] r s]; simpl; lia. Qed.

Lemma iter_shr_1_nonneg p mrs :
  (0 ≤ shr_m mrs → 0 ≤ shr_m (SpecFloat.iter_pos shr_1 p mrs))%Z.
Proof.
  revert mrs. induction p as [p IH|p IH|]; intros mrs H; simpl;
    auto using shr_1_nonneg.
Qed.

Lemma shr_fexp_nonneg prec emax m e l :
  (0 ≤ m → 0 ≤ shr_m (shr_fexp prec emax m e l).1)%Z.
Proof.
  intros H. unfold shr_fexp, shr.
  assert (0 ≤ shr_m (shr_record_of_loc m l))%Z by (by destruct l as [|[]]).
  destruct (_ - e)%Z; simpl; auto using iter_shr_1_nonneg.
Qed.

Lemma round_nearest_even_nonneg m l :
  (0 ≤ m → 0 ≤ round_nearest_even m l)%Z.
Proof.
  destruct l as [|[]]; simpl; [done| |done|lia]. destruct (Z.even m); lia.
Qed.

Lemma binary_round_aux_not_nan prec emax sx mx ex lx :
  (0 ≤ mx)%Z → binary_round_aux prec emax sx mx ex lx ≠ S754_nan.
Proof.
  intros H. unfold binary_round_aux.
  pose proof (shr_fexp_nonneg prec emax mx ex lx H) as H1.
  destruct (shr_fexp prec emax mx ex lx) as [mrs1 e1]. simpl in H1.
  pose proof (shr_fexp_nonneg prec emax _ e1 loc_Exact
    (round_nearest_even_nonneg _ (loc_of_shr_record mrs1) H1)) as H2.
  destruct (shr_fexp prec emax _ e1 loc_Exact) as [mrs2 e2]. simpl in H2.
  destruct (shr_m mrs2) as [|m|m]; [done| |lia].
  by destruct (_ <=? _)%Z.
Qed.

Lemma binary_normalize_not_nan prec emax m e szero :
  binary_normalize prec emax m e szero ≠ S754_nan.
Proof.
  unfold binary_normalize, binary_round.
  destruct m as [|m|m]; [done| |];
    destruct (shl_align _ _ _); by apply binary_round_aux_not_nan.
Qed.

Lemma SFmul_finite_not_nan x y :
  SFfinite x → SFfinite y → SFmul prec emax x y ≠ S754_nan.
Proof.
  destruct x, y; simpl; try done. intros _ _.
  by apply binary_round_aux_not_nan.
Qed.

Lemma SFadd_finite_not_nan x y :
  SFfinite x → y ≠ S754_nan → SFadd prec emax x y ≠ S754_nan.
Proof.
  destruct x as [sx| | |sx mx ex], y as [sy|sy| |sy my ey]; simpl; try done.
  - intros _ _. by destruct sx, sy.
  - intros _ _. apply binary_normalize_not_nan.
Qed.

(** A line through finite numbers is a number. *)
Lemma line_not_nan (A B x : float) :
  is_finite A = true → is_finite B = true → is_finite x = true →
  is_nan (A + x * B) = false.
Proof.
  rewrite !is_finite_spec, is_nan_spec, add_spec, mul_spec.
  intros HA HB Hx. apply SFadd_finite_not_nan; [done|].
  by apply SFmul_finite_not_nan.
Qed.

Lemma SFadd_zero_r x s :
  x ≠ S754_nan → SFeqb (SFadd prec emax x (S754_zero s)) x = true.
Proof.
  destruct x as [sx|sx| |sx mx ex]; simpl; try done.
  - by destruct sx, s.
  - intros _. by apply SFeqb_refl.
  - intros _. by apply SFeqb_refl.
Qed.

Lemma SFmul_zero_l sx y :
  SFfinite y → ∃ s, SFmul prec emax (S754_zero sx) y = S754_zero s.
Proof. destruct y; simpl; try done; eauto. Qed.

Lemma SFmul_zero_r x sy :
  SFfinite x → ∃ s, SFmul prec emax x (S754_zero sy) = S754_zero s.
Proof. destruct x; simpl; try done; eauto. Qed.

(** Where the product [x * B] is a zero the line is at [A]. *)
Lemma line_zero_product (A B x : float) :
  is_nan A = false →
  is_zero x = true ∧ is_finite B = true ∨
  is_finite x = true ∧ is_zero B = true →
  (A + x * B =? A)%float = true.
Proof.
  rewrite is_nan_spec, !is_finite_spec, FloatAxioms.eqb_spec, add_spec, mul_spec.
  unfold SF64add, SF64mul.
  intros HA [[[sx ->]%is_zero_spec HB]|[Hx [sy ->]%is_zero_spec]].
  - destruct (SFmul_zero_l sx _ HB) as [s ->]. by apply SFadd_zero_r.
  - destruct (SFmul_zero_r _ sy Hx) as [s ->]. by apply SFadd_zero_r.
Qed.

(** ** Further properties of the two methods *)

Section further.
Context {Self : Type}.
Implicit Types (s : @objects Self) (emul_i : Z).

(** X2: a parameter that is not a number.  With ['A'] and ['B'] both
    present and one of them bound to a string, [call_model] raises
    [TypeError], for every coordinate sequence of numbers or strings,
    the empty one too. *)
Theorem call_model_str_parameter emul_i s (a b : pyval) :
  par_set s !! "A" = Some a →
  par_set s !! "B" = Some b →
  (∃ t, a = PyStr t) ∨ (∃ t, b = PyStr t) →
  call_model emul_i s = (Raise TypeError, s).
Proof.
  intros HA HB H. rewrite call_model_unfold.
  rewrite (getitem_ok _ _ _ HA), (getitem_ok _ _ _ HB).
  destruct H as [[t ->]|[t ->]].
  - destruct (np.mul _ b) as [p|e] eqn:Ep.
    + by destruct p.
    + by destruct (np.array (data_idx s)), b; simplify_eq/=.
  - by destruct (np.array (data_idx s)).
Qed.

(** X3: [get_md_var] on ints.  For every coordinate sequence of
    numbers, ints and floats alike, [get_md_var] returns the [float64]
    array of 1e-4 with one item per coordinate, whatever the iteration
    index and the parameter assignment. *)
Theorem get_md_var_numeric emul_i s :
  Forall (λ v, is_number v = true) (data_idx s) →
  ∃ var : list float,
    get_md_var emul_i s = (Ok (np.Float64 var), s) ∧
    length var = length (data_idx s) ∧
    Forall (λ v, v = 1e-4%float) var.
Proof.
  intros [floats Hf]%mapM_as_float_numbers.
  rewrite (get_md_var_numbers emul_i s floats Hf). eexists.
  split; [done|]. split; [apply length_replicate|]. by apply Forall_replicate.
Qed.

(** X4: whenever [call_model] returns values, [get_md_var] returns a
    variance for each of them: it succeeds on the same request with an
    array of the same shape. *)
Theorem md_var_matches_model emul_i s (vals : np.ndarray) :
  (call_model emul_i s).1 = Ok vals →
  ∃ var, (get_md_var emul_i s).1 = Ok var ∧ np.shape var = np.shape vals.
Proof.
  intros [Hshape [floats Hf]]%call_model_ok_inv.
  rewrite (get_md_var_numbers emul_i s floats Hf). eexists. split; [done|].
  simpl. by rewrite length_replicate.
Qed.

(** X5: evaluating in batches.  With a float slope ['B'] (and a number
    for ['A']) the values returned on a concatenation of two coordinate
    sequences of numbers are the values returned on the first followed
    by the values returned on the second: with a float for [B] every
    product is taken in [float64], whatever the other coordinates
    are. *)
Theorem call_model_batches emul_i (self : Self) (ps : gmap string pyval)
    (a : pyval) (B : float) (d1 d2 : list pyval) :
  ps !! "A" = Some a →
  is_number a = true →
  ps !! "B" = Some (PyFloat B) →
  Forall (λ v, is_number v = true) d1 →
  Forall (λ v, is_number v = true) d2 →
  ∃ v1 v2 : list float,
    call_model emul_i (Objects self ps d1)
    = (Ok (np.Float64 v1), Objects self ps d1) ∧
    call_model emul_i (Objects self ps d2)
    = (Ok (np.Float64 v2), Objects self ps d2) ∧
    call_model emul_i (Objects self ps (d1 ++ d2))
    = (Ok (np.Float64 (v1 ++ v2)), Objects self ps (d1 ++ d2)).
Proof.
  intros HA Ha HB [f1 H1]%mapM_as_float_numbers [f2 H2]%mapM_as_float_numbers.
  assert (∃ A', np.as_float a = Some A') as [A' HA'].
  { by apply as_float_number. }
  pose proof (mapM_as_float_app _ _ _ _ H1 H2) as H12.
  exists ((λ xi, A' + xi * B)%float <$> f1), ((λ xi, A' + xi * B)%float <$> f2).
  rewrite <- fmap_app.
  split; [|split];
    apply (call_model_float64 emul_i (Objects self ps _) a (PyFloat B) _ A' B);
    eauto.
Qed.

(** X6: [A] is the intercept.  For a finite slope [B] and an intercept
    [A] that is not NaN, the value returned at every coordinate equal
    to zero compares equal to [A]. *)
Theorem call_model_intercept emul_i s (A B : float) (x : list float) :
  par_set s !! "A" = Some (PyFloat A) →
  par_set s !! "B" = Some (PyFloat B) →
  data_idx s = PyFloat <$> x →
  is_nan A = false →
  is_finite B = true →
  ∃ vals : list float,
    (call_model emul_i s).1 = Ok (np.Float64 vals) ∧
    ∀ (i : nat) xi, x !! i = Some xi → is_zero xi = true →
      ∃ v, vals !! i = Some v ∧ (v =? A)%float = true.
Proof.
  intros HA HB Hx HnA HfB. eexists. split.
  - by rewrite (call_model_floats emul_i s A B x HA HB Hx).
  - intros i xi Hi Hz. eexists. rewrite list_lookup_fmap, Hi. split; [done|].
    apply line_zero_product; auto.
Qed.

(** X7: [B] is the slope.  With a slope equal to zero the line is flat:
    at finite coordinates every value returned compares equal to the
    intercept [A] (not NaN). *)
Theorem call_model_zero_slope emul_i s (A B : float) (x : list float) :
  par_set s !! "A" = Some (PyFloat A) →
  par_set s !! "B" = Some (PyFloat B) →
  data_idx s = PyFloat <$> x →
  is_nan A = false →
  is_zero B = true →
  Forall (λ xi, is_finite xi = true) x →
  ∃ vals : list float,
    (call_model emul_i s).1 = Ok (np.Float64 vals) ∧
    length vals = length x ∧
    Forall (λ v, (v =? A)%float = true) vals.
Proof.
  intros HA HB Hx HnA HzB Hfx. eexists. split; [|split].
  - by rewrite (call_model_floats emul_i s A B x HA HB Hx).
  - by rewrite length_fmap.
  - apply Forall_fmap. eapply Forall_impl; [exact Hfx|].
    intros xi Hxi. simpl. apply line_zero_product; auto.
Qed.

(** X8: finite parameters and finite coordinates never give NaN: every
    value [call_model] returns is a number (finite, or an infinity when
    the product or the sum overflows). *)
Theorem call_model_no_nan emul_i s (A B : float) (x : list float) :
  par_set s !! "A" = Some (PyFloat A) →
  par_set s !! "B" = Some (PyFloat B) →
  data_idx s = PyFloat <$> x →
  is_finite A = true →
  is_finite B = true →
  Forall (λ xi, is_finite xi = true) x →
  ∃ vals : list float,
    (call_model emul_i s).1 = Ok (np.Float64 vals) ∧
    length vals = length x ∧
    Forall (λ v, is_nan v = false) vals.
Proof.
  intros HA HB Hx HfA HfB Hfx. eexists. split; [|split].
  - by rewrite (call_model_floats emul_i s A B x HA HB Hx).
  - by rewrite length_fmap.
  - apply Forall_fmap. eapply Forall_impl; [exact Hfx|].
    intros xi Hxi. simpl. by apply line_not_nan.
Qed.

End further.

(** ** Loading the Sphinx configuration *)

Lemma conf_module_run (prism_version : string) (ns : gmap string conf.pyobj) :
  ∃ ns', conf.module prism_version ns = (Raise TypeError, ns') ∧
    ns' !! "release" = Some (conf.Str prism_version) ∧
    ns' !! "project" = Some (conf.Str "PRISM") ∧
    is_Some (ns' !! "html_theme_options") ∧
    Forall (λ name, ns' !! name = ns !! name)
      conf.names_after_html_theme_options.
Proof.
  eexists. split.
  { cbv beta iota zeta delta
      [conf.module conf.assign eval mbind M_bind conf.str_mod].
    reflexivity. }
  split; [by simplify_map_eq|]. split; [by simplify_map_eq|].
  split; [by simplify_map_eq|].
  unfold conf.names_after_html_theme_options.
  repeat (apply Forall_cons; split; [by simplify_map_eq|]). apply Forall_nil_2.
Qed.

(** X9: the configuration cannot be loaded.  For every version string
    bound by the version file, and whatever the namespace held before,
    executing [conf.py] raises [TypeError] at the assignment of
    [html_title], whose format has one [%s] for a tuple of two items.
    [project] and [release] are bound when it fails (as is
    [html_theme_options], the statement before it), and no name from
    [html_title] on is assigned: not [latex_documents], [man_pages] or
    [texinfo_documents], which use the title. *)
Theorem conf_module_raises (prism_version : string)
    (ns : gmap string conf.pyobj) :
  (conf.module prism_version ns).1 = Raise TypeError ∧
  (conf.module prism_version ns).2 !! "release"
  = Some (conf.Str prism_version) ∧
  (conf.module prism_version ns).2 !! "project" = Some (conf.Str "PRISM") ∧
  is_Some ((conf.module prism_version ns).2 !! "html_theme_options") ∧
  Forall (λ name, (conf.module prism_version ns).2 !! name = ns !! name)
    conf.names_after_html_theme_options.
Proof.
  destruct (conf_module_run prism_version ns) as (ns' & -> & H). by simpl.
Qed.

(** ** Instances of the further properties *)

Lemma md_var_matches_model_witness :
  (call_model 0 example_request).1 = Ok (np.Float64 [4.5; 6.75; 0]%float) ∧
  ∃ var, (get_md_var 0 example_request).1 = Ok var ∧
    np.shape var = np.shape (np.Float64 [4.5; 6.75; 0]%float).
Proof.
  split; [reflexivity|].
  apply (md_var_matches_model 0 example_request). reflexivity.
Defined.

Lemma call_model_batches_witness :
  par_set mixed_request !! "A" = Some (PyFloat 0) ∧
  is_number (PyFloat 0) = true ∧
  <[ "B" := PyFloat 1.5 ]> (par_set mixed_request) !! "B"
  = Some (PyFloat 1.5) ∧
  Forall (λ v, is_number v = true) [PyInt (2 ^ 62) eq_refl] ∧
  Forall (λ v, is_number v = true) [PyFloat 0.5] ∧
  ∃ v1 v2 : list float,
    call_model 0 (Objects tt (<[ "B" := PyFloat 1.5 ]> (par_set mixed_request))
      [PyInt (2 ^ 62) eq_refl])
    = (Ok (np.Float64 v1), Objects tt
        (<[ "B" := PyFloat 1.5 ]> (par_set mixed_request))
        [PyInt (2 ^ 62) eq_refl]) ∧
    call_model 0 (Objects tt (<[ "B" := PyFloat 1.5 ]> (par_set mixed_request))
      [PyFloat 0.5])
    = (Ok (np.Float64 v2), Objects tt
        (<[ "B" := PyFloat 1.5 ]> (par_set mixed_request)) [PyFloat 0.5]) ∧
    call_model 0 (Objects tt (<[ "B" := PyFloat 1.5 ]> (par_set mixed_request))
      ([PyInt (2 ^ 62) eq_refl] ++ [PyFloat 0.5]))
    = (Ok (np.Float64 (v1 ++ v2)), Objects tt
        (<[ "B" := PyFloat 1.5 ]> (par_set mixed_request))
        ([PyInt (2 ^ 62) eq_refl] ++ [PyFloat 0.5])).
Proof.
  assert (Forall (λ v, is_number v = true) [PyInt (2 ^ 62) eq_refl]) as H1.
  { by apply Forall_singleton. }
  assert (Forall (λ v, is_number v = true) [PyFloat 0.5]) as H2.
  { by apply Forall_singleton. }
  split; [reflexivity|]. split; [reflexivity|]. split; [reflexivity|].
  split; [exact H1|]. split; [exact H2|].
  apply (call_model_batches 0 tt _ (PyFloat 0) 1.5
           [PyInt (2 ^ 62) eq_refl] [PyFloat 0.5]);
    first [reflexivity | exact H1 | exact H2].
Defined.

(** With an int for [B] the law of X5 fails: NumPy takes the dtype
    from the whole sequence, so the product at [2^62] wraps around in
    the batch of ints and does not next to a float. *)
Example call_model_batches_int_slope :
  call_model 0 int_request = (Ok (np.Float64 [0]%float), int_request) ∧
  call_model 0 mixed_request
  = (Ok (np.Float64 [1.8446744073709552e19; 2]%float), mixed_request).
Proof. split; reflexivity. Qed.

Lemma call_model_str_parameter_witness :
  let s := Objects tt {[ "A" := PyStr "x"; "B" := PyFloat 1.5 ]} [PyFloat 1] in
  par_set s !! "A" = Some (PyStr "x") ∧
  par_set s !! "B" = Some (PyFloat 1.5) ∧
  ((∃ t, PyStr "x" = PyStr t) ∨ (∃ t, PyFloat 1.5 = PyStr t)) ∧
  call_model 0 s = (Raise TypeError, s).
Proof.
  intros s.
  assert ((∃ t, PyStr "x" = PyStr t) ∨ (∃ t, PyFloat 1.5 = PyStr t)) as H.
  { left. by exists "x". }
  split; [reflexivity|]. split; [reflexivity|]. split; [exact H|].
  apply (call_model_str_parameter 0 s (PyStr "x") (PyFloat 1.5));
    first [reflexivity | exact H].
Defined.

Lemma get_md_var_numeric_witness :
  Forall (λ v, is_number v = true) (data_idx small_int_request) ∧
  ∃ var : list float,
    get_md_var 0 small_int_request
    = (Ok (np.Float64 var), small_int_request) ∧
    length var = length (data_idx small_int_request) ∧
    Forall (λ v, v = 1e-4%float) var.
Proof.
  assert (Forall (λ v, is_number v = true) (data_idx small_int_request)) as H.
  { repeat (apply Forall_cons; split; [reflexivity|]). apply Forall_nil_2. }
  split; [exact H|]. by apply (get_md_var_numeric 0 small_int_request).
Defined.

Lemma call_model_intercept_witness :
  let s := Objects tt (par_set example_request) [PyFloat 0; PyFloat 2] in
  par_set s !! "A" = Some (PyFloat 3) ∧
  par_set s !! "B" = Some (PyFloat 1.5) ∧
  data_idx s = PyFloat <$> [0; 2]%float ∧
  is_nan 3 = false ∧
  is_finite 1.5 = true ∧
  ∃ vals : list float,
    (call_model 0 s).1 = Ok (np.Float64 vals) ∧
    ∀ (i : nat) xi, [0; 2]%float !! i = Some xi → is_zero xi = true →
      ∃ v, vals !! i = Some v ∧ (v =? 3)%float = true.
Proof.
  intros s. repeat (split; [reflexivity|]).
  apply (call_model_intercept 0 s 3 1.5 [0; 2]%float); reflexivity.
Defined.

Lemma call_model_zero_slope_witness :
  let s :=
    Objects tt {[ "A" := PyFloat 3; "B" := PyFloat 0 ]}
      [PyFloat 1; PyFloat 2.5; PyFloat (-2)] in
  par_set s !! "A" = Some (PyFloat 3) ∧
  par_set s !! "B" = Some (PyFloat 0) ∧
  data_idx s = PyFloat <$> [1; 2.5; -2]%float ∧
  is_nan 3 = false ∧
  is_zero 0 = true ∧
  Forall (λ xi, is_finite xi = true) [1; 2.5; -2]%float ∧
  ∃ vals : list float,
    (call_model 0 s).1 = Ok (np.Float64 vals) ∧
    length vals = length [1; 2.5; -2]%float ∧
    Forall (λ v, (v =? 3)%float = true) vals.
Proof.
  intros s.
  assert (Forall (λ xi, is_finite xi = true) [1; 2.5; -2]%float) as Hf.
  { repeat (apply Forall_cons; split; [reflexivity|]). apply Forall_nil_2. }
  repeat (split; [reflexivity|]). split; [exact Hf|].
  apply (call_model_zero_slope 0 s 3 0 [1; 2.5; -2]%float);
    first [reflexivity | exact Hf].
Defined.

Lemma call_model_no_nan_witness :
  par_set example_request !! "A" = Some (PyFloat 3) ∧
  par_set example_request !! "B" = Some (PyFloat 1.5) ∧
  data_idx example_request = PyFloat <$> [1; 2.5; -2]%float ∧
  is_finite 3 = true ∧
  is_finite 1.5 = true ∧
  Forall (λ xi, is_finite xi = true) [1; 2.5; -2]%float ∧
  ∃ vals : list float,
    (call_model 0 example_request).1 = Ok (np.Float64 vals) ∧
    length vals = length [1; 2.5; -2]%float ∧
    Forall (λ v, is_nan v = false) vals.
Proof.
  assert (Forall (λ xi, is_finite xi = true) [1; 2.5; -2]%float) as Hf.
  { repeat (apply Forall_cons; split; [reflexivity|]). apply Forall_nil_2. }
  repeat (split; [reflexivity|]). split; [exact Hf|].
  apply (call_model_no_nan 0 example_request 3 1.5 [1; 2.5; -2]%float);
    first [reflexivity | exact Hf].
Defined.
